(** * MCUboot public interface ([bootutil_public.h]): swap state and swap_info

    A shallow embedding of the public bootutil interface.  The constants,
    the [swap_info] packing macros and [struct boot_swap_state] are taken
    from [boot/bootutil/include/bootutil/bootutil_public.h].  The functions
    the header only declares are modelled from the design document and say
    so in their doc comment. *)

From Stdlib Require Import ZArith List Bool Lia.
From stdpp Require Import base option list gmap.
Import ListNotations.

Local Open Scope Z_scope.

(** ** Constants of [bootutil_public.h] *)

(** Attempt to boot the contents of the primary slot. *)
Definition BOOT_SWAP_TYPE_NONE : Z := 1.
(** Swap to the secondary slot.  Absent a confirm command, revert back on
    next boot. *)
Definition BOOT_SWAP_TYPE_TEST : Z := 2.
(** Swap to the secondary slot, and permanently switch to booting its
    contents. *)
Definition BOOT_SWAP_TYPE_PERM : Z := 3.
(** Swap back to alternate slot.  A confirm changes this state to NONE. *)
Definition BOOT_SWAP_TYPE_REVERT : Z := 4.
(** Swap failed because image to be run is not valid. *)
Definition BOOT_SWAP_TYPE_FAIL : Z := 5.
(** Swapping encountered an unrecoverable error. *)
Definition BOOT_SWAP_TYPE_PANIC : Z := 0xff.

Definition BOOT_MAGIC_SZ : Z := 16.

(** Without [MCUBOOT_BOOT_MAX_ALIGN] the header takes the [#else] branch. *)
Definition BOOT_MAX_ALIGN : Z := 8.
Definition BOOT_MAGIC_ALIGN_SIZE : Z := BOOT_MAGIC_SZ.

Definition BOOT_MAGIC_GOOD : Z := 1.
Definition BOOT_MAGIC_BAD : Z := 2.
Definition BOOT_MAGIC_UNSET : Z := 3.
Definition BOOT_MAGIC_ANY : Z := 4.      (* control only *)
Definition BOOT_MAGIC_NOTGOOD : Z := 5.  (* control only *)

(** [BOOT_FLAG_SET] is written to flash and stays equal to one. *)
Definition BOOT_FLAG_SET : Z := 1.
Definition BOOT_FLAG_BAD : Z := 2.
Definition BOOT_FLAG_UNSET : Z := 3.
Definition BOOT_FLAG_ANY : Z := 4.       (* control only *)

Definition BOOT_EFLASH : Z := 1.
Definition BOOT_EFILE : Z := 2.
Definition BOOT_EBADIMAGE : Z := 3.
Definition BOOT_EBADVECT : Z := 4.
Definition BOOT_EBADSTATUS : Z := 5.
Definition BOOT_ENOMEM : Z := 6.
Definition BOOT_EBADARGS : Z := 7.
Definition BOOT_EBADVERSION : Z := 8.
Definition BOOT_EFLASH_SEC : Z := 9.

Definition BOOT_HOOK_REGULAR : Z := 1.

(** The six swap types and the nine error kinds, in header order. *)
Definition swap_type_constants : list Z :=
  [BOOT_SWAP_TYPE_NONE; BOOT_SWAP_TYPE_TEST; BOOT_SWAP_TYPE_PERM;
   BOOT_SWAP_TYPE_REVERT; BOOT_SWAP_TYPE_FAIL; BOOT_SWAP_TYPE_PANIC].

Definition error_constants : list Z :=
  [BOOT_EFLASH; BOOT_EFILE; BOOT_EBADIMAGE; BOOT_EBADVECT; BOOT_EBADSTATUS;
   BOOT_ENOMEM; BOOT_EBADARGS; BOOT_EBADVERSION; BOOT_EFLASH_SEC].

(** ** The [swap_info] macros *)

(** A value stored into a [uint8_t] object. *)
Definition to_uint8 (z : Z) : Z := z mod 256.

(** [#define BOOT_GET_SWAP_TYPE(swap_info) ((swap_info) & 0x0F)] *)
Definition BOOT_GET_SWAP_TYPE (swap_info : Z) : Z := Z.land swap_info 0x0F.

(** [#define BOOT_GET_IMAGE_NUM(swap_info) ((swap_info) >> 4)] *)
Definition BOOT_GET_IMAGE_NUM (swap_info : Z) : Z := Z.shiftr swap_info 4.

(** [BOOT_SET_SWAP_INFO(swap_info, image, type)]: two assertions, then the
    assignment [(swap_info) = (image) << 4 | (type)] into the one-byte
    [swap_info].  [None] is a failed assertion (assertions enabled);
    [Some b] is the byte left in [swap_info].  The arguments are the
    unsigned image number and swap type of the caller. *)
Definition BOOT_SET_SWAP_INFO (image type : Z) : option Z :=
  if negb (image <? 0xF) then None          (* assert((image) < 0xF) *)
  else if negb (type <? 0xF) then None      (* assert((type)  < 0xF) *)
  else Some (to_uint8 (Z.lor (Z.shiftl image 4) type)).

(** ** [struct boot_swap_state] *)

Record boot_swap_state : Type := {
  magic : Z;      (* One of the BOOT_MAGIC_[...] values. *)
  swap_type : Z;  (* One of the BOOT_SWAP_TYPE_[...] values. *)
  copy_done : Z;  (* One of the BOOT_FLAG_[...] values. *)
  image_ok : Z;   (* One of the BOOT_FLAG_[...] values. *)
  image_num : Z   (* Boot status belongs to this image *)
}.

(** ** Flash areas and the stored trailer *)

(** Modelled from the spec: the flash geometry, which the header leaves to
    the flash map backend.  A sector is the erase unit; its content is a
    list of bytes. *)
Definition sector : Type := list Z.

(** Modelled from the spec: the trailer as it is stored in a slot (the
    trailer layout is not declared in the header).  Section 6 of the design
    document fixes the layout: a 16-byte magic sentinel, then one byte each
    of swap_info, copy_done, image_ok and image_num. *)
Record trailer : Type := {
  tr_magic : list Z;
  tr_swap_info : Z;
  tr_copy_done : Z;
  tr_image_ok : Z;
  tr_image_num : Z
}.

(** Modelled from the spec: [struct flash_area] comes from the flash map
    backend, which the header only includes.  A slot holds its
    content-bearing sectors, the progress marker kept in the trailer region
    (the index of the next sector to exchange; it is written after each
    full sector triple) and the trailer record. *)
Record flash_area : Type := {
  fa_sectors : list sector;
  fa_progress : nat;
  fa_trailer : trailer
}.

(** Modelled from the spec: the result of a fallible engine call, a value
    or one of the [BOOT_E...] status codes (section 6); no exception
    crosses this boundary. *)
Inductive result (A : Type) : Type :=
  | Ok (a : A)
  | Err (rc : Z).
Arguments Ok {A} a.
Arguments Err {A} rc.

(** Modelled from the spec: the flash writes an engine call performs, in
    order: a sector copied, the progress marker written, a trailer erased
    with its sector, a trailer field written. *)
Inductive flash_op : Type :=
  | SectorCopy (src : Z) (src_idx : nat) (dst : Z) (dst_idx : nat)
  | MarkerWrite (area : Z) (next : nat)
  | TrailerErase (area : Z)
  | TrailerWrite (area : Z).

(** Modelled from the spec: the flash (areas by id) and the log of writes,
    threaded through every engine call as an explicit context value
    (section 9).  Both survive an error: a storage fault leaves the writes
    already made in place (section 4.3). *)
Record fstate : Type := {
  fs_flash : gmap Z flash_area;
  fs_log : list flash_op
}.

(** An engine call: from the state to a result and the state it leaves. *)
Definition flashM (A : Type) : Type := fstate -> result A * fstate.

Definition ret {A : Type} (a : A) : flashM A := fun s => (Ok a, s).

(** An error return: the status code, with the state as it is. *)
Definition throw {A : Type} (rc : Z) : flashM A := fun s => (Err rc, s).

(** Sequencing stops at the first error. *)
Definition bind {A B : Type} (m : flashM A) (k : A -> flashM B) : flashM B :=
  fun s => match m s with
           | (Ok a, s') => k a s'
           | (Err rc, s') => (Err rc, s')
           end.

Notation "'do' x <- m ; k" := (bind m (fun x => k))
  (at level 10, x name, m at level 100, k at level 200).
Notation "'run' m ; k" := (bind m (fun _ => k))
  (at level 10, m at level 100, k at level 200).

(** A loop over the elements of a list, left to right. *)
Fixpoint for_each {A : Type} (f : A -> flashM unit) (l : list A) : flashM unit :=
  match l with
  | [] => ret tt
  | a :: l' => run f a; for_each f l'
  end.

(** Modelled from the spec: the flash area abstraction (section 1), which
    the header takes from the flash map backend.  Opening an unknown area
    id is a flash failure; a copy reads a sector of one area and writes it
    into a sector of another, and fails out of range. *)
Definition flash_area_open (id : Z) : flashM flash_area :=
  fun s => match fs_flash s !! id with
           | Some a => (Ok a, s)
           | None => (Err BOOT_EFLASH, s)
           end.

(** A write: the new content of one area, and its entry in the log. *)
Definition flash_store (id : Z) (a : flash_area) (op : flash_op) : flashM unit :=
  fun s => (Ok tt, {| fs_flash := <[id := a]> (fs_flash s);
                      fs_log := fs_log s ++ [op] |}).

(** Modelled from the spec: [read(offset, len)] at sector granularity. *)
Definition flash_read_sector (id : Z) (k : nat) : flashM sector :=
  do a <- flash_area_open id;
  match fa_sectors a !! k with
  | Some d => ret d
  | None => throw BOOT_EFLASH
  end.

(** Modelled from the spec: one sector copied from an area into another. *)
Definition flash_copy_sector (src : Z) (k : nat) (dst : Z) (j : nat) : flashM unit :=
  do d <- flash_read_sector src k;
  do a <- flash_area_open dst;
  if decide (j < length (fa_sectors a))%nat
  then flash_store dst
         {| fa_sectors := <[j := d]> (fa_sectors a);
            fa_progress := fa_progress a;
            fa_trailer := fa_trailer a |}
         (SectorCopy src k dst j)
  else throw BOOT_EFLASH.

(** Modelled from the spec: the progress marker persisted after a sector
    triple (section 4.3). *)
Definition flash_write_marker (id : Z) (next : nat) : flashM unit :=
  do a <- flash_area_open id;
  flash_store id
    {| fa_sectors := fa_sectors a; fa_progress := next;
       fa_trailer := fa_trailer a |}
    (MarkerWrite id next).

(** Modelled from the spec: a write of trailer fields, the rest of the
    area kept. *)
Definition flash_write_trailer (id : Z) (f : trailer -> trailer) : flashM unit :=
  do a <- flash_area_open id;
  flash_store id
    {| fa_sectors := fa_sectors a; fa_progress := fa_progress a;
       fa_trailer := f (fa_trailer a) |}
    (TrailerWrite id).

(** Field updates of the stored trailer. *)
Definition set_tr_magic (m : list Z) (t : trailer) : trailer :=
  {| tr_magic := m; tr_swap_info := tr_swap_info t;
     tr_copy_done := tr_copy_done t; tr_image_ok := tr_image_ok t;
     tr_image_num := tr_image_num t |}.

Definition set_tr_swap_info (b : Z) (t : trailer) : trailer :=
  {| tr_magic := tr_magic t; tr_swap_info := b;
     tr_copy_done := tr_copy_done t; tr_image_ok := tr_image_ok t;
     tr_image_num := tr_image_num t |}.

Definition set_tr_copy_done (b : Z) (t : trailer) : trailer :=
  {| tr_magic := tr_magic t; tr_swap_info := tr_swap_info t;
     tr_copy_done := b; tr_image_ok := tr_image_ok t;
     tr_image_num := tr_image_num t |}.

Definition set_tr_image_ok (b : Z) (t : trailer) : trailer :=
  {| tr_magic := tr_magic t; tr_swap_info := tr_swap_info t;
     tr_copy_done := tr_copy_done t; tr_image_ok := b;
     tr_image_num := tr_image_num t |}.

(** ** What the platform supplies *)

(** Modelled from the spec: the collaborators the engine consumes through
    narrow interfaces and the build-time values the header refers to but
    does not define: the magic sentinel, the value of an erased byte, the
    flash-area ids of the slots of an image pair and of the scratch area,
    the header sanity check and the external image validator. *)
Record platform : Type := {
  boot_img_magic : list Z;
  erased_val : Z;
  FLASH_AREA_IMAGE_PRIMARY : Z -> Z;
  FLASH_AREA_IMAGE_SECONDARY : Z -> Z;
  FLASH_AREA_IMAGE_SCRATCH : Z;
  header_sane : flash_area -> bool;
  image_valid : flash_area -> bool;
  (* one sector exchange of the move-based and of the offset-based
     strategy, of which the design document gives the contract only *)
  move_swap_sector : Z -> Z -> nat -> flashM unit;
  offset_swap_sector : Z -> Z -> nat -> flashM unit
}.

(** Modelled from the spec: the three sector-movement strategies of
    section 4.3, selected at configuration time. *)
Inductive swap_strategy : Type :=
  | ScratchBased
  | MoveBased
  | OffsetBased.

(** Modelled from the spec: the two swap types a request can carry. *)
Definition is_test_or_perm (t : Z) : bool :=
  (t =? BOOT_SWAP_TYPE_TEST) || (t =? BOOT_SWAP_TYPE_PERM).

(** Modelled from the spec: the actions that move data between the slots
    (section 3): Test, Permanent and Revert. *)
Definition is_swap_action (t : Z) : bool :=
  is_test_or_perm t || (t =? BOOT_SWAP_TYPE_REVERT).

(** The status code of a call, as the header documents it: 0 on success;
    nonzero on failure. *)
Definition rc_of {A : Type} (r : result A) : Z :=
  match r with
  | Ok _ => 0
  | Err rc => rc
  end.

Section Engine.

Context (pf : platform).

(** *** Trailer codec and swap state reader *)

(** Modelled from the spec: a trailer whose sector has been erased; every
    byte reads as the erased value. *)
Definition erased_trailer : trailer :=
  {| tr_magic := replicate (Z.to_nat BOOT_MAGIC_SZ) (erased_val pf);
     tr_swap_info := erased_val pf;
     tr_copy_done := erased_val pf;
     tr_image_ok := erased_val pf;
     tr_image_num := erased_val pf |}.

(** Modelled from the spec: the magic decoder (absent from the header).
    Good is the correct sentinel bytes, Unset is all-erased, Bad is wrong
    but non-blank bytes. *)
Definition decode_magic (m : list Z) : Z :=
  if bool_decide (m = boot_img_magic pf) then BOOT_MAGIC_GOOD
  else if forallb (Z.eqb (erased_val pf)) m then BOOT_MAGIC_UNSET
  else BOOT_MAGIC_BAD.

(** Modelled from the spec: the flag decoder (absent from the header).
    [BOOT_FLAG_SET] is the byte written to flash, an erased byte is Unset
    and a malformed byte decodes to Bad rather than failing. *)
Definition decode_flag (b : Z) : Z :=
  if b =? BOOT_FLAG_SET then BOOT_FLAG_SET
  else if b =? erased_val pf then BOOT_FLAG_UNSET
  else BOOT_FLAG_BAD.

(** Modelled from the spec: decoding of the stored trailer into
    [struct boot_swap_state] (section 4.1).  The swap type is the low
    nibble of swap_info, taken with the header's [BOOT_GET_SWAP_TYPE]. *)
Definition decode_trailer (t : trailer) : boot_swap_state :=
  {| magic := decode_magic (tr_magic t);
     swap_type := BOOT_GET_SWAP_TYPE (tr_swap_info t);
     copy_done := decode_flag (tr_copy_done t);
     image_ok := decode_flag (tr_image_ok t);
     image_num := tr_image_num t |}.

(** Modelled from the spec: [boot_read_swap_state], declared in the header
    without a body.  It reads the fixed-offset record and never fails on
    malformed-but-present bytes; the only error is the area not being
    readable.  A trailer that is not present decodes with Unset magic. *)
Definition boot_read_swap_state (fa : Z) (fl : gmap Z flash_area)
  : result boot_swap_state :=
  match fl !! fa with
  | Some a => Ok (decode_trailer (fa_trailer a))
  | None => Err BOOT_EFLASH
  end.

(** Modelled from the spec: [boot_read_swap_state_by_id] is the same read
    through the logical partition id. *)
Definition boot_read_swap_state_by_id (flash_area_id : Z)
  (fl : gmap Z flash_area) : result boot_swap_state :=
  boot_read_swap_state flash_area_id fl.

(** *** Swap decision engine *)

(** Modelled from the spec: rule 1 of the decision table (section 4.2): no
    secondary trailer, or secondary magic not Good and swap_info None.  A
    trailer that is not present reads with Unset magic. *)
Definition rule_no_request (secondary : boot_swap_state) : bool :=
  (magic secondary =? BOOT_MAGIC_UNSET)
  || (negb (magic secondary =? BOOT_MAGIC_GOOD)
      && (swap_type secondary =? BOOT_SWAP_TYPE_NONE)).

(** Modelled from the spec: rule 2: secondary has Good magic, swap_info
    Test or Permanent, primary copy_done not Set. *)
Definition rule_requested (primary secondary : boot_swap_state) : bool :=
  (magic secondary =? BOOT_MAGIC_GOOD)
  && is_test_or_perm (swap_type secondary)
  && negb (copy_done primary =? BOOT_FLAG_SET).

(** Modelled from the spec: rule 3: primary has Good magic, swap_info
    Test, image_ok not Set. *)
Definition rule_revert (primary : boot_swap_state) : bool :=
  (magic primary =? BOOT_MAGIC_GOOD)
  && (swap_type primary =? BOOT_SWAP_TYPE_TEST)
  && negb (image_ok primary =? BOOT_FLAG_SET).

(** Modelled from the spec: rule 4: primary has Good magic, swap_info Test
    or Permanent, copy_done Set and image_ok Set. *)
Definition rule_steady (primary : boot_swap_state) : bool :=
  (magic primary =? BOOT_MAGIC_GOOD)
  && is_test_or_perm (swap_type primary)
  && (copy_done primary =? BOOT_FLAG_SET)
  && (image_ok primary =? BOOT_FLAG_SET).

(** Modelled from the spec: the decision table of section 4.2, which the
    header does not contain.  The rules are evaluated in the order of the
    table and the first match wins.  Rule 5 resolves every combination the
    rules above cannot map to a transition to Panic (section 7).  Rule 6
    (the chosen image fails the external validator) is not a function of
    the two trailers; the executor applies it before it moves any byte
    (section 4.3).  The prior confirmation state is the image_ok flag of
    the primary trailer. *)
Definition swap_decision (primary secondary : boot_swap_state) : Z :=
  if rule_no_request secondary then BOOT_SWAP_TYPE_NONE
  else if rule_requested primary secondary then swap_type secondary
  else if rule_revert primary then BOOT_SWAP_TYPE_REVERT
  else if rule_steady primary then BOOT_SWAP_TYPE_NONE
  else BOOT_SWAP_TYPE_PANIC.

(** Modelled from the spec: [boot_swap_type_multi], declared in the header
    without a body: a BOOT_SWAP_TYPE_[...] constant on success, negative
    errno code on fail.  It reads the two trailers of the image pair and
    applies the decision table; a read error propagates. *)
Definition boot_swap_type_multi (image_index : Z) (fl : gmap Z flash_area) : Z :=
  match boot_read_swap_state_by_id (FLASH_AREA_IMAGE_PRIMARY pf image_index) fl with
  | Err rc => - rc
  | Ok primary =>
    match boot_read_swap_state_by_id (FLASH_AREA_IMAGE_SECONDARY pf image_index) fl with
    | Err rc => - rc
    | Ok secondary => swap_decision primary secondary
    end
  end.

(** Modelled from the spec: [boot_swap_type], declared in the header
    without a body; it works the same as a [boot_swap_type_multi(0)]
    call. *)
Definition boot_swap_type (fl : gmap Z flash_area) : Z :=
  boot_swap_type_multi 0 fl.

(** *** Pending-request API *)

(** Modelled from the spec: marking a slot pending (section 4.4): the slot
    must already hold a header-sane image, which is checked before any
    write; the trailer is created with the magic sentinel and swap_info
    Test or Permanent.  Field writes are append-only: a swap_info already
    written with another value is an inconsistent trailer. *)
Definition boot_write_pending (fa : Z) (a : flash_area) (permanent : bool)
  : flashM unit :=
  if negb (header_sane pf a) then throw BOOT_EBADIMAGE
  else
    match BOOT_SET_SWAP_INFO 0 (if permanent then BOOT_SWAP_TYPE_PERM
                                else BOOT_SWAP_TYPE_TEST) with
    | None => throw BOOT_EBADARGS
    | Some info =>
      if (tr_swap_info (fa_trailer a) =? erased_val pf)
         || (tr_swap_info (fa_trailer a) =? info)
      then flash_write_trailer fa
             (fun t => set_tr_swap_info info (set_tr_magic (boot_img_magic pf) t))
      else throw BOOT_EBADSTATUS
    end.

(** Modelled from the spec: [boot_set_next], declared in the header without
    a body.  When [active] is true, [confirm] is considered true regardless
    of the passed value (header).  Confirming writes image_ok = Set, and
    calling it when image_ok is already Set is a successful no-op; the
    failure modes are the storage and an existing trailer that is Bad or
    inconsistent, surfaced as error codes before anything is written
    (section 4.4). *)
Definition boot_set_next (fa : Z) (active confirm : bool) : flashM unit :=
  let confirm := if active then true else confirm in
  do a <- flash_area_open fa;
  let st := decode_trailer (fa_trailer a) in
  if active && (image_ok st =? BOOT_FLAG_SET) then ret tt
  else if (magic st =? BOOT_MAGIC_BAD)
          || (confirm && (image_ok st =? BOOT_FLAG_BAD))
  then throw BOOT_EBADSTATUS
  else
    run (if active then ret tt else boot_write_pending fa a confirm);
    if confirm && negb (image_ok st =? BOOT_FLAG_SET)
    then flash_write_trailer fa (set_tr_image_ok BOOT_FLAG_SET)
    else ret tt.

(** Modelled from the spec: [boot_set_pending_multi], declared in the
    header without a body, as one of the two uses that [boot_set_next]
    generalizes: the secondary slot of the pair is marked pending, for one
    test boot ([permanent = 0]) or for good. *)
Definition boot_set_pending_multi (image_index : Z) (permanent : Z) : flashM unit :=
  boot_set_next (FLASH_AREA_IMAGE_SECONDARY pf image_index) false
                (negb (permanent =? 0)).

(** Modelled from the spec: [boot_set_pending], kept for compatibility: the
    request for image pair 0. *)
Definition boot_set_pending (permanent : Z) : flashM unit :=
  boot_set_pending_multi 0 permanent.

(** Modelled from the spec: [boot_set_confirmed_multi] writes
    image_ok = Set on the primary trailer of the pair: the running slot,
    confirmed through [boot_set_next]. *)
Definition boot_set_confirmed_multi (image_index : Z) : flashM unit :=
  boot_set_next (FLASH_AREA_IMAGE_PRIMARY pf image_index) true true.

(** Modelled from the spec: [boot_set_confirmed], kept for compatibility:
    the confirmation of image pair 0. *)
Definition boot_set_confirmed : flashM unit :=
  boot_set_confirmed_multi 0.

(** *** Swap executor *)

(** Modelled from the spec: a trailer is destroyed only by erasing the
    sector that contains it (section 3); the progress marker lives in the
    same region and goes with it. *)
Definition flash_erase_trailer (id : Z) : flashM unit :=
  do a <- flash_area_open id;
  flash_store id
    {| fa_sectors := fa_sectors a; fa_progress := 0%nat;
       fa_trailer := erased_trailer |}
    (TrailerErase id).

(** Modelled from the spec: one sector triple of the scratch-based
    strategy (section 4.3): primary sector [n] into scratch, secondary
    sector [n] into the primary's sector, scratch into the secondary's
    sector, then the progress marker. *)
Definition scratch_swap_sector (p s : Z) (n : nat) : flashM unit :=
  run flash_copy_sector p n (FLASH_AREA_IMAGE_SCRATCH pf) 0;
  run flash_copy_sector s n p n;
  run flash_copy_sector (FLASH_AREA_IMAGE_SCRATCH pf) 0 s n;
  flash_write_marker p (S n).

(** Modelled from the spec: the exchange of one sector under the
    configured strategy. *)
Definition swap_sector (strategy : swap_strategy) : Z -> Z -> nat -> flashM unit :=
  match strategy with
  | ScratchBased => scratch_swap_sector
  | MoveBased => move_swap_sector pf
  | OffsetBased => offset_swap_sector pf
  end.

(** Modelled from the spec: the swap executor (section 4.3), which the
    header does not declare.  A completed swap is detected via
    copy_done = Set on the primary trailer and makes the call a no-op; an
    image that fails the validator aborts before any byte moves; a fresh
    swap cycle starts by erasing the primary trailer; a partial swap
    resumes from the progress marker; after every sector has been moved
    and verified readable, copy_done is set on the primary trailer and the
    secondary trailer is erased.  A flash failure is surfaced as it is,
    not retried. *)
Definition swap_executor (strategy : swap_strategy) (action image_index : Z)
  : flashM unit :=
  let p := FLASH_AREA_IMAGE_PRIMARY pf image_index in
  let s := FLASH_AREA_IMAGE_SECONDARY pf image_index in
  do pa <- flash_area_open p;
  do sa <- flash_area_open s;
  if copy_done (decode_trailer (fa_trailer pa)) =? BOOT_FLAG_SET then ret tt
  else if negb (is_swap_action action) then ret tt
  else if negb (image_valid pf sa) then throw BOOT_EBADIMAGE
  else
    match BOOT_SET_SWAP_INFO image_index action with
    | None => throw BOOT_EBADARGS
    | Some info =>
      run (match fa_progress pa with
           | O =>
             run flash_erase_trailer p;
             flash_write_trailer p
               (fun t => set_tr_swap_info info (set_tr_magic (boot_img_magic pf) t))
           | S _ => ret tt
           end);
      run for_each (swap_sector strategy p s)
            (seq (fa_progress pa) (length (fa_sectors pa) - fa_progress pa));
      run for_each (fun k => do _d <- flash_read_sector p k; ret tt)
            (seq 0 (length (fa_sectors pa)));
      run flash_write_trailer p (set_tr_copy_done BOOT_FLAG_SET);
      flash_erase_trailer s
    end.

End Engine.

(** ** A concrete platform and concrete flash contents *)

Definition demo_magic : list Z :=
  [1; 2; 3; 4; 5; 6; 7; 8; 9; 10; 11; 12; 13; 14; 15; 16].

(** Erased flash reads [0xff]; image pair [i] lives in areas [2i+1] and
    [2i+2], the scratch area is area 0; an image is acceptable when its
    slot has at least one sector. *)
Definition demo_platform : platform :=
  {| boot_img_magic := demo_magic;
     erased_val := 0xff;
     FLASH_AREA_IMAGE_PRIMARY := fun i => 2 * i + 1;
     FLASH_AREA_IMAGE_SECONDARY := fun i => 2 * i + 2;
     FLASH_AREA_IMAGE_SCRATCH := 0;
     header_sane := fun a => negb (bool_decide (fa_sectors a = []));
     image_valid := fun a => negb (bool_decide (fa_sectors a = []));
     move_swap_sector := fun _ _ _ => throw BOOT_EFLASH;
     offset_swap_sector := fun _ _ _ => throw BOOT_EFLASH |}.

Definition demo_trailer (m : list Z) (info cd ok : Z) : trailer :=
  {| tr_magic := m; tr_swap_info := info; tr_copy_done := cd;
     tr_image_ok := ok; tr_image_num := 0 |}.

Definition demo_area (secs : list sector) (t : trailer) : flash_area :=
  {| fa_sectors := secs; fa_progress := 0%nat; fa_trailer := t |}.

(** Image pair 0 with the given primary and secondary trailers. *)
Definition demo_flash (tp ts : trailer) : gmap Z flash_area :=
  <[0 := demo_area [[0; 0]] (erased_trailer demo_platform)]>
    (<[1 := demo_area [[1; 1]; [2; 2]] tp]>
       (<[2 := demo_area [[3; 3]; [4; 4]] ts]> ∅)).

(** Primary trailers: test-booted and never confirmed; swapped and
    confirmed; Good magic over a swap_info that is still erased; wrong
    magic bytes over an unconfirmed image. *)
Definition tr_test_unconfirmed : trailer := demo_trailer demo_magic 0x02 0xff 0xff.
Definition tr_test_confirmed : trailer := demo_trailer demo_magic 0x02 0x01 0x01.
Definition tr_bad_magic : trailer :=
  demo_trailer (replicate 16 0) 0x02 0x01 0xff.

(** The primary trailer a completed test swap leaves when the new image
    never confirms itself: swap type Test, copy_done Set, image_ok Unset. *)
Definition tr_test_swapped : trailer := demo_trailer demo_magic 0x02 0x01 0xff.

(** Secondary trailers: a pending test request; Good magic with swap type
    None. *)
Definition tr_test_request : trailer := demo_trailer demo_magic 0x02 0xff 0xff.
Definition tr_no_request : trailer := demo_trailer demo_magic 0x01 0xff 0xff.

(** An engine call starts with an empty write log. *)
Definition demo_state (fl : gmap Z flash_area) : fstate :=
  {| fs_flash := fl; fs_log := [] |}.


(** The magic states and the flag states of the header, control-only
    values last, and the ones [struct boot_swap_state] can hold after a
    read of a sector. *)
Definition magic_constants : list Z :=
  [BOOT_MAGIC_GOOD; BOOT_MAGIC_BAD; BOOT_MAGIC_UNSET; BOOT_MAGIC_ANY;
   BOOT_MAGIC_NOTGOOD].

Definition flag_constants : list Z :=
  [BOOT_FLAG_SET; BOOT_FLAG_BAD; BOOT_FLAG_UNSET; BOOT_FLAG_ANY].

Definition stored_magic_constants : list Z :=
  [BOOT_MAGIC_GOOD; BOOT_MAGIC_BAD; BOOT_MAGIC_UNSET].

Definition stored_flag_constants : list Z :=
  [BOOT_FLAG_SET; BOOT_FLAG_BAD; BOOT_FLAG_UNSET].

(** A value that a [uint8_t] object holds. *)
Definition is_uint8 (z : Z) : Prop := 0 <= z < 256.

(** The five swap types that [BOOT_SET_SWAP_INFO] accepts. *)
Definition packable_swap_types : list Z :=
  [BOOT_SWAP_TYPE_NONE; BOOT_SWAP_TYPE_TEST; BOOT_SWAP_TYPE_PERM;
   BOOT_SWAP_TYPE_REVERT; BOOT_SWAP_TYPE_FAIL].

(** Closed goals over concrete flash contents are settled by evaluation. *)
Ltac by_evaluation := vm_compute; reflexivity.


(** ** The [swap_info] byte *)

Lemma lor_shiftl4_add (i t : Z) :
  0 <= i -> 0 <= t < 16 -> Z.lor (Z.shiftl i 4) t = 16 * i + t.
Proof.
  intros Hi Ht.
  rewrite Z.shiftl_mul_pow2 by lia.
  change (2 ^ 4) with 16.
  rewrite <- Z.lxor_lor, <- Z.add_nocarry_lxor; try lia.
  all: apply Z.bits_inj'; intros n Hn; rewrite Z.land_spec, Z.bits_0;
    destruct (Z.lt_ge_cases n 4) as [Hlt | Hge].
  all: try (change 16 with (2 ^ 4); rewrite Z.mul_pow2_bits_low by lia; reflexivity).
  all: rewrite (Z.bits_above_log2 t n), andb_false_r; try reflexivity; try lia.
  all: destruct (Z.eq_dec t 0) as [-> | Hne]; [simpl; lia|];
       apply Z.lt_le_trans with 4; [apply Z.log2_lt_pow2; lia | lia].
Qed.

Lemma swap_info_fields (i t : Z) :
  0 <= i < 16 -> 0 <= t < 16 ->
  to_uint8 (16 * i + t) = 16 * i + t /\
  BOOT_GET_SWAP_TYPE (16 * i + t) = t /\
  BOOT_GET_IMAGE_NUM (16 * i + t) = i.
Proof.
  intros Hi Ht. unfold to_uint8, BOOT_GET_SWAP_TYPE, BOOT_GET_IMAGE_NUM.
  split; [apply Z.mod_small; lia|].
  change 0x0F with (Z.ones 4).
  rewrite Z.land_ones, Z.shiftr_div_pow2 by lia.
  change (2 ^ 4) with 16.
  split.
  - rewrite Z.add_comm, Z.mul_comm, Z.mod_add by lia. apply Z.mod_small; lia.
  - rewrite Z.add_comm, Z.mul_comm, Z.div_add by lia.
    rewrite Z.div_small by lia. lia.
Qed.

(** Both assertions hold exactly when the packing succeeds. *)
Lemma set_swap_info_some (i t : Z) :
  i < 0xF -> t < 0xF ->
  BOOT_SET_SWAP_INFO i t = Some (to_uint8 (Z.lor (Z.shiftl i 4) t)).
Proof.
  intros Hi Ht. unfold BOOT_SET_SWAP_INFO.
  destruct (Z.ltb_spec i 0xF); [|lia].
  destruct (Z.ltb_spec t 0xF); [|lia].
  reflexivity.
Qed.

Lemma set_swap_info_inv (i t s : Z) :
  BOOT_SET_SWAP_INFO i t = Some s ->
  i < 0xF /\ t < 0xF /\ s = to_uint8 (Z.lor (Z.shiftl i 4) t).
Proof.
  unfold BOOT_SET_SWAP_INFO.
  destruct (Z.ltb_spec i 0xF); simpl; [|discriminate].
  destruct (Z.ltb_spec t 0xF); simpl; [|discriminate].
  intros [= <-]. auto.
Qed.

Lemma set_swap_info_packed (i t : Z) :
  0 <= i < 15 -> 0 <= t < 15 ->
  BOOT_SET_SWAP_INFO i t = Some (16 * i + t).
Proof.
  intros Hi Ht.
  rewrite set_swap_info_some, lor_shiftl4_add by lia.
  f_equal. apply swap_info_fields; lia.
Qed.

(** C3: for an image index [i < 15] and a swap type [t < 15],
    [BOOT_SET_SWAP_INFO] succeeds and the packed byte gives back the swap
    type through [BOOT_GET_SWAP_TYPE] (low nibble) and the image number
    through [BOOT_GET_IMAGE_NUM] (high nibble). *)
Theorem swap_info_round_trip (i t : Z) :
  0 <= i < 15 -> 0 <= t < 15 ->
  exists swap_info,
    BOOT_SET_SWAP_INFO i t = Some swap_info /\
    BOOT_GET_SWAP_TYPE swap_info = t /\
    BOOT_GET_IMAGE_NUM swap_info = i.
Proof.
  intros Hi Ht. exists (16 * i + t).
  split; [apply set_swap_info_packed; assumption|].
  apply swap_info_fields; lia.
Qed.

Lemma swap_info_round_trip_witness :
  (0 <= 3 < 15 /\ 0 <= 2 < 15) /\
  exists swap_info,
    BOOT_SET_SWAP_INFO 3 2 = Some swap_info /\
    BOOT_GET_SWAP_TYPE swap_info = 2 /\
    BOOT_GET_IMAGE_NUM swap_info = 3.
Proof.
  split; [lia|]. apply (swap_info_round_trip 3 2); lia.
Defined.

(** [BOOT_GET_SWAP_TYPE] never yields a value above the low nibble. *)
Lemma get_swap_type_range (swap_info : Z) :
  0 <= BOOT_GET_SWAP_TYPE swap_info < 16.
Proof.
  unfold BOOT_GET_SWAP_TYPE. change 0x0F with (Z.ones 4).
  rewrite Z.land_ones by lia. apply Z.mod_pos_bound. reflexivity.
Qed.

(** C4, as stated, fails at [BOOT_SWAP_TYPE_PANIC] with image index 0:
    the constant is one of the six and the image index is below 15, but
    [0xff < 0xF] does not hold, the packing stops at the assertion, and no
    byte gives 0xff back through [BOOT_GET_SWAP_TYPE]. *)
Lemma panic_fails_swap_info_assert :
  In BOOT_SWAP_TYPE_PANIC swap_type_constants /\
  0 <= 0 < 15 /\
  ~ (BOOT_SWAP_TYPE_PANIC < 0xF) /\
  BOOT_SET_SWAP_INFO 0 BOOT_SWAP_TYPE_PANIC = None /\
  ~ (exists swap_info,
       BOOT_SET_SWAP_INFO 0 BOOT_SWAP_TYPE_PANIC = Some swap_info /\
       BOOT_GET_SWAP_TYPE swap_info = BOOT_SWAP_TYPE_PANIC).
Proof.
  split; [unfold swap_type_constants; simpl; tauto|].
  split; [lia|].
  split; [unfold BOOT_SWAP_TYPE_PANIC; lia|].
  split; [reflexivity|].
  intros (s & Hs & _). discriminate Hs.
Qed.

(** C4, amended: the five constants NONE, TEST, PERM, REVERT and FAIL fit
    in the low nibble: for each of them and every image index [i < 15] the
    assertion [(type) < 0xF] holds and [BOOT_GET_SWAP_TYPE] recovers the
    constant from the packed byte.  [BOOT_SWAP_TYPE_PANIC] (0xff) fails the
    assertion, is never packed and is never the result of
    [BOOT_GET_SWAP_TYPE]. *)
Theorem packable_swap_types_fit (t i : Z) :
  In t packable_swap_types -> 0 <= i < 15 ->
  (t < 0xF /\
   exists swap_info,
     BOOT_SET_SWAP_INFO i t = Some swap_info /\
     BOOT_GET_SWAP_TYPE swap_info = t) /\
  ~ (BOOT_SWAP_TYPE_PANIC < 0xF) /\
  BOOT_SET_SWAP_INFO i BOOT_SWAP_TYPE_PANIC = None /\
  (forall swap_info, BOOT_GET_SWAP_TYPE swap_info <> BOOT_SWAP_TYPE_PANIC).
Proof.
  intros Ht Hi.
  assert (Hrange : 1 <= t <= 5).
  { unfold packable_swap_types in Ht. simpl in Ht.
    unfold BOOT_SWAP_TYPE_NONE, BOOT_SWAP_TYPE_TEST, BOOT_SWAP_TYPE_PERM,
      BOOT_SWAP_TYPE_REVERT, BOOT_SWAP_TYPE_FAIL in Ht.
    intuition lia. }
  split; [|split; [|split]].
  - split; [lia|].
    exists (16 * i + t).
    split; [apply set_swap_info_packed; lia|].
    apply swap_info_fields; lia.
  - unfold BOOT_SWAP_TYPE_PANIC. lia.
  - unfold BOOT_SET_SWAP_INFO, BOOT_SWAP_TYPE_PANIC.
    destruct (Z.ltb_spec i 0xF); [reflexivity | lia].
  - intros s. pose proof (get_swap_type_range s).
    unfold BOOT_SWAP_TYPE_PANIC. lia.
Qed.

Lemma packable_swap_types_fit_witness :
  (In BOOT_SWAP_TYPE_REVERT packable_swap_types /\ 0 <= 14 < 15) /\
  exists swap_info,
    BOOT_SET_SWAP_INFO 14 BOOT_SWAP_TYPE_REVERT = Some swap_info /\
    BOOT_GET_SWAP_TYPE swap_info = BOOT_SWAP_TYPE_REVERT.
Proof.
  assert (Hin : In BOOT_SWAP_TYPE_REVERT packable_swap_types)
    by (simpl; tauto).
  assert (Hi : 0 <= 14 < 15) by lia.
  split; [split; assumption|].
  exact (proj2 (proj1 (packable_swap_types_fit BOOT_SWAP_TYPE_REVERT 14 Hin Hi))).
Defined.

(** C10: [BOOT_SET_SWAP_INFO] rejects image index 15 for every swap type,
    although [15 << 4 | type] still fits in one byte with 15 in its high
    nibble; and whenever [BOOT_SET_SWAP_INFO] succeeds on an image index
    and a swap type (both unsigned), [BOOT_GET_IMAGE_NUM] of the byte it
    produced lies between 0 and 14. *)
Theorem swap_info_image_below_15 :
  (forall t, BOOT_SET_SWAP_INFO 15 t = None) /\
  (forall t, 0 <= t < 15 ->
     BOOT_GET_IMAGE_NUM (to_uint8 (Z.lor (Z.shiftl 15 4) t)) = 15) /\
  (forall i t swap_info,
     0 <= i -> 0 <= t ->
     BOOT_SET_SWAP_INFO i t = Some swap_info ->
     0 <= BOOT_GET_IMAGE_NUM swap_info <= 14).
Proof.
  split; [|split].
  - intros t. reflexivity.
  - intros t Ht. rewrite lor_shiftl4_add by lia.
    destruct (swap_info_fields 15 t) as (-> & _ & ->); [lia | lia | reflexivity].
  - intros i t s Hi Ht Hs.
    apply set_swap_info_inv in Hs. destruct Hs as (Hi' & Ht' & ->).
    rewrite lor_shiftl4_add by lia.
    destruct (swap_info_fields i t) as (-> & _ & ->); lia.
Qed.

Lemma swap_info_image_below_15_witness :
  (0 <= 14 /\ 0 <= 3 /\ BOOT_SET_SWAP_INFO 14 3 = Some 0xE3) /\
  0 <= BOOT_GET_IMAGE_NUM 0xE3 <= 14.
Proof.
  assert (Hi : 0 <= 14) by lia.
  assert (Ht : 0 <= 3) by lia.
  assert (Hs : BOOT_SET_SWAP_INFO 14 3 = Some 0xE3) by reflexivity.
  split; [auto|].
  exact (proj2 (proj2 swap_info_image_below_15) 14 3 0xE3 Hi Ht Hs).
Defined.

(** ** Status codes *)

(** C5, as stated, fails at [BOOT_EFLASH]: it is one of the nine
    constants and its value is 1, which is not negative. *)
Lemma eflash_not_negative :
  In BOOT_EFLASH error_constants /\ BOOT_EFLASH = 1 /\ ~ (BOOT_EFLASH < 0).
Proof.
  split; [simpl; tauto|]. split; [reflexivity|].
  unfold BOOT_EFLASH. lia.
Qed.

(** C5, amended: the nine error-kind status codes are the positive
    integers 1 to 9: each constant is positive, the nine are pairwise
    distinct, and each is distinct from the success code 0. *)
Theorem error_codes_closed_set :
  error_constants = [1; 2; 3; 4; 5; 6; 7; 8; 9] /\
  (forall e, In e error_constants -> 0 < e) /\
  NoDup error_constants /\
  (forall e, In e error_constants -> e <> 0).
Proof.
  assert (Hpos : forall e, In e error_constants -> 1 <= e <= 9).
  { intros e He. unfold error_constants in He. simpl in He.
    unfold BOOT_EFLASH, BOOT_EFILE, BOOT_EBADIMAGE, BOOT_EBADVECT,
      BOOT_EBADSTATUS, BOOT_ENOMEM, BOOT_EBADARGS, BOOT_EBADVERSION,
      BOOT_EFLASH_SEC in He.
    intuition lia. }
  split; [reflexivity|]. split; [|split].
  - intros e He. apply Hpos in He. lia.
  - apply (bool_decide_unpack _). vm_compute. reflexivity.
  - intros e He. apply Hpos in He. lia.
Qed.

Lemma error_codes_closed_set_witness :
  In BOOT_EBADARGS error_constants /\ 0 < BOOT_EBADARGS /\ BOOT_EBADARGS <> 0.
Proof.
  assert (Hin : In BOOT_EBADARGS error_constants) by (simpl; tauto).
  split; [exact Hin|]. split.
  - exact (proj1 (proj2 error_codes_closed_set) BOOT_EBADARGS Hin).
  - exact (proj2 (proj2 (proj2 error_codes_closed_set)) BOOT_EBADARGS Hin).
Defined.

(** ** The decision engine *)

Section Decision.

Context (pf : platform).







Lemma rule_requested_needs_copy_pending (p s : boot_swap_state) :
  copy_done p = BOOT_FLAG_SET -> rule_requested p s = false.
Proof.
  intros Hcd. unfold rule_requested. rewrite Hcd. simpl.
  apply andb_false_r.
Qed.



(** The table yields one of five actions; Fail is left to the executor. *)
Lemma swap_decision_range (p s : boot_swap_state) :
  In (swap_decision p s)
     [BOOT_SWAP_TYPE_NONE; BOOT_SWAP_TYPE_TEST; BOOT_SWAP_TYPE_PERM;
      BOOT_SWAP_TYPE_REVERT; BOOT_SWAP_TYPE_PANIC].
Proof.
  unfold swap_decision.
  destruct (rule_no_request s); [simpl; tauto|].
  destruct (rule_requested p s) eqn:Hreq.
  - unfold rule_requested, is_test_or_perm in Hreq.
    destruct (Z.eqb_spec (swap_type s) BOOT_SWAP_TYPE_TEST) as [-> | _];
      [simpl; tauto|].
    destruct (Z.eqb_spec (swap_type s) BOOT_SWAP_TYPE_PERM) as [-> | _];
      [simpl; tauto|].
    rewrite andb_false_r in Hreq. discriminate Hreq.
  - destruct (rule_revert p); [simpl; tauto|].
    destruct (rule_steady p); simpl; tauto.
Qed.

(** [boot_swap_type_multi] returns a BOOT_SWAP_TYPE constant on success and
    a negative code when a slot cannot be read. *)
Lemma boot_swap_type_multi_range (i : Z) (fl : gmap Z flash_area) :
  In (boot_swap_type_multi pf i fl) swap_type_constants \/
  boot_swap_type_multi pf i fl < 0.
Proof.
  unfold boot_swap_type_multi, boot_read_swap_state_by_id,
    boot_read_swap_state.
  destruct (fl !! FLASH_AREA_IMAGE_PRIMARY pf i);
    [|right; unfold BOOT_EFLASH; lia].
  destruct (fl !! FLASH_AREA_IMAGE_SECONDARY pf i);
    [|right; unfold BOOT_EFLASH; lia].
  left.
  match goal with |- In (swap_decision ?p ?s) _ =>
    pose proof (swap_decision_range p s) as H end.
  unfold swap_type_constants. simpl in *. tauto.
Qed.


(** C9: [boot_swap_type] returns the value of [boot_swap_type_multi] on
    image pair 0, for every platform and flash content. *)
Theorem boot_swap_type_is_multi_0 (fl : gmap Z flash_area) :
  boot_swap_type pf fl = boot_swap_type_multi pf 0 fl.
Proof.
  unfold boot_swap_type. reflexivity.
Qed.

End Decision.



(** ** The request API and the executor *)

Section Requests.

Context (pf : platform).

(** The guard of the executor: copy_done Set on the primary trailer ends
    the call before anything is written. *)
Lemma swap_executor_guard (strategy : swap_strategy) (action i : Z)
    (st : fstate) (pa sa : flash_area) :
  fs_flash st !! FLASH_AREA_IMAGE_PRIMARY pf i = Some pa ->
  fs_flash st !! FLASH_AREA_IMAGE_SECONDARY pf i = Some sa ->
  copy_done (decode_trailer pf (fa_trailer pa)) = BOOT_FLAG_SET ->
  swap_executor pf strategy action i st = (Ok tt, st).
Proof.
  intros Hpa Hsa Hcd.
  unfold swap_executor, bind, flash_area_open.
  rewrite Hpa, Hsa, Hcd. reflexivity.
Qed.

(** C2: when the primary trailer of an image pair already shows
    copy_done = Set, a call of the swap executor (any strategy, any action)
    returns success, appends nothing to the log of flash writes and leaves
    the whole flash state as it was. *)
Theorem executor_idle_after_copy_done (strategy : swap_strategy)
    (action i : Z) (st : fstate) (pa sa : flash_area) :
  fs_flash st !! FLASH_AREA_IMAGE_PRIMARY pf i = Some pa ->
  fs_flash st !! FLASH_AREA_IMAGE_SECONDARY pf i = Some sa ->
  copy_done (decode_trailer pf (fa_trailer pa)) = BOOT_FLAG_SET ->
  swap_executor pf strategy action i st = (Ok tt, st) /\
  rc_of (fst (swap_executor pf strategy action i st)) = 0 /\
  fs_log (snd (swap_executor pf strategy action i st)) = fs_log st /\
  fs_flash (snd (swap_executor pf strategy action i st)) = fs_flash st.
Proof.
  intros Hpa Hsa Hcd.
  rewrite (swap_executor_guard strategy action i st pa sa Hpa Hsa Hcd).
  auto.
Qed.

(** C6: when the primary trailer of an image pair already has image_ok
    Set, [boot_set_confirmed_multi] returns success (0), writes nothing
    and leaves the flash state unchanged. *)
Theorem boot_set_confirmed_multi_idempotent (i : Z) (st : fstate)
    (pa : flash_area) :
  fs_flash st !! FLASH_AREA_IMAGE_PRIMARY pf i = Some pa ->
  image_ok (decode_trailer pf (fa_trailer pa)) = BOOT_FLAG_SET ->
  boot_set_confirmed_multi pf i st = (Ok tt, st) /\
  rc_of (fst (boot_set_confirmed_multi pf i st)) = 0.
Proof.
  intros Hpa Hok.
  assert (Hrun : boot_set_confirmed_multi pf i st = (Ok tt, st)).
  { unfold boot_set_confirmed_multi, boot_set_next, bind, flash_area_open.
    rewrite Hpa, Hok. reflexivity. }
  rewrite Hrun. auto.
Qed.

(** C7: for every flash area and every value of [confirm],
    [boot_set_next(fa, true, confirm)] has the result and the effect of
    [boot_set_next(fa, true, true)]. *)
Theorem boot_set_next_active_forces_confirm (fa : Z) (c : bool) (st : fstate) :
  boot_set_next pf fa true c st = boot_set_next pf fa true true st.
Proof.
  unfold boot_set_next. reflexivity.
Qed.

End Requests.

Lemma executor_idle_after_copy_done_witness :
  swap_executor demo_platform ScratchBased BOOT_SWAP_TYPE_TEST 0
    (demo_state (demo_flash tr_test_confirmed tr_test_request))
  = (Ok tt, demo_state (demo_flash tr_test_confirmed tr_test_request)).
Proof.
  apply (executor_idle_after_copy_done demo_platform ScratchBased
           BOOT_SWAP_TYPE_TEST 0
           (demo_state (demo_flash tr_test_confirmed tr_test_request))
           (demo_area [[1; 1]; [2; 2]] tr_test_confirmed)
           (demo_area [[3; 3]; [4; 4]] tr_test_request));
    by_evaluation.
Defined.

Lemma boot_set_confirmed_multi_idempotent_witness :
  boot_set_confirmed_multi demo_platform 0
    (demo_state (demo_flash tr_test_confirmed tr_no_request))
  = (Ok tt, demo_state (demo_flash tr_test_confirmed tr_no_request)) /\
  rc_of (fst (boot_set_confirmed_multi demo_platform 0
                (demo_state (demo_flash tr_test_confirmed tr_no_request)))) = 0.
Proof.
  apply (boot_set_confirmed_multi_idempotent demo_platform 0
           (demo_state (demo_flash tr_test_confirmed tr_no_request))
           (demo_area [[1; 1]; [2; 2]] tr_test_confirmed));
    by_evaluation.
Defined.

(** ** The testable scenarios of the design document on [demo_platform] *)

(** Magic blank detection: two erased trailers decide None. *)
Example blank_trailers_decide_none :
  boot_swap_type demo_platform
    (demo_flash (erased_trailer demo_platform) (erased_trailer demo_platform))
  = BOOT_SWAP_TYPE_NONE.
Proof. by_evaluation. Qed.

(** Request/decision round trip: [boot_set_pending_multi(0, 0)] followed by
    a decision for image 0 yields Test; with [permanent = 1], Permanent. *)
Example pending_request_round_trip :
  let st := demo_state (demo_flash (erased_trailer demo_platform)
                                   (erased_trailer demo_platform)) in
  boot_swap_type_multi demo_platform 0
    (fs_flash (snd (boot_set_pending_multi demo_platform 0 0 st)))
  = BOOT_SWAP_TYPE_TEST /\
  boot_swap_type_multi demo_platform 0
    (fs_flash (snd (boot_set_pending_multi demo_platform 0 1 st)))
  = BOOT_SWAP_TYPE_PERM.
Proof. split; by_evaluation. Qed.

(** The scratch-based executor on a two-sector pair with a pending
    Permanent request: one sector triple and one marker per sector, between
    the trailer set-up and the commit; the slots end up exchanged, the
    primary trailer shows swap type Permanent and copy_done Set, the
    secondary trailer is erased. *)
Example scratch_swap_two_sectors :
  let st := demo_state (demo_flash (erased_trailer demo_platform)
                                   (demo_trailer demo_magic 0x03 0xff 0xff)) in
  let out := swap_executor demo_platform ScratchBased BOOT_SWAP_TYPE_PERM 0 st in
  fst out = Ok tt /\
  fs_log (snd out)
  = [TrailerErase 1; TrailerWrite 1;
     SectorCopy 1 0 0 0; SectorCopy 2 0 1 0; SectorCopy 0 0 2 0; MarkerWrite 1 1;
     SectorCopy 1 1 0 0; SectorCopy 2 1 1 1; SectorCopy 0 0 2 1; MarkerWrite 1 2;
     TrailerWrite 1; TrailerErase 2] /\
  fa_sectors <$> (fs_flash (snd out) !! 1) = Some [[3; 3]; [4; 4]] /\
  fa_sectors <$> (fs_flash (snd out) !! 2) = Some [[1; 1]; [2; 2]] /\
  (decode_trailer demo_platform ∘ fa_trailer) <$> (fs_flash (snd out) !! 1)
  = Some {| magic := BOOT_MAGIC_GOOD; swap_type := BOOT_SWAP_TYPE_PERM;
            copy_done := BOOT_FLAG_SET; image_ok := BOOT_FLAG_UNSET;
            image_num := 0xff |} /\
  magic ∘ decode_trailer demo_platform ∘ fa_trailer <$> (fs_flash (snd out) !! 2)
  = Some BOOT_MAGIC_UNSET.
Proof. repeat split; by_evaluation. Qed.

(** An image the validator rejects aborts the executor before any write. *)
Example invalid_image_moves_nothing :
  let fl := <[2 := demo_area [] tr_test_request]>
              (demo_flash (erased_trailer demo_platform) tr_test_request) in
  swap_executor demo_platform ScratchBased BOOT_SWAP_TYPE_TEST 0 (demo_state fl)
  = (Err BOOT_EBADIMAGE, demo_state fl).
Proof. by_evaluation. Qed.

(** Confirming an unconfirmed image writes image_ok once; on a Bad trailer
    the request is refused with an error code and nothing is written. *)
Example confirm_writes_image_ok :
  let st := demo_state (demo_flash tr_test_unconfirmed tr_no_request) in
  fst (boot_set_confirmed demo_platform st) = Ok tt /\
  fs_log (snd (boot_set_confirmed demo_platform st)) = [TrailerWrite 1] /\
  boot_set_confirmed demo_platform
    (demo_state (demo_flash tr_bad_magic tr_no_request))
  = (Err BOOT_EBADSTATUS, demo_state (demo_flash tr_bad_magic tr_no_request)).
Proof. repeat split; by_evaluation. Qed.

(** For a slot that is not the running one, [confirm] does matter: it
    selects between a Test and a Permanent request. *)
Example inactive_confirm_matters :
  let st := demo_state (demo_flash (erased_trailer demo_platform)
                                   (erased_trailer demo_platform)) in
  boot_swap_type demo_platform
    (fs_flash (snd (boot_set_next demo_platform 2 false false st)))
  = BOOT_SWAP_TYPE_TEST /\
  boot_swap_type demo_platform
    (fs_flash (snd (boot_set_next demo_platform 2 false true st)))
  = BOOT_SWAP_TYPE_PERM.
Proof. split; by_evaluation. Qed.

(** ** A completed swap makes the next call a no-op *)

(** The laws of sequencing, state by state. *)
Lemma bind_ret_l {A B : Type} (a : A) (k : A -> flashM B) (s : fstate) :
  bind (ret a) k s = k a s.
Proof. reflexivity. Qed.

Lemma bind_ret_r {A : Type} (m : flashM A) (s : fstate) :
  bind m ret s = m s.
Proof. unfold bind, ret. destruct (m s) as [[a | rc] s']; reflexivity. Qed.

Lemma bind_assoc {A B C : Type} (m : flashM A) (k : A -> flashM B)
    (h : B -> flashM C) (s : fstate) :
  bind (bind m k) h s = bind m (fun a => bind (k a) h) s.
Proof. unfold bind. destruct (m s) as [[a | rc] s']; reflexivity. Qed.

(** An error keeps the writes made before it: the log only grows. *)
Lemma flash_store_logs (id : Z) (a : flash_area) (op : flash_op) (s : fstate) :
  fs_log (snd (flash_store id a op s)) = fs_log s ++ [op].
Proof. reflexivity. Qed.

Lemma bind_ok_inv {A B : Type} (m : flashM A) (k : A -> flashM B)
    (s s' : fstate) (b : B) :
  bind m k s = (Ok b, s') ->
  exists a s0, m s = (Ok a, s0) /\ k a s0 = (Ok b, s').
Proof.
  unfold bind. destruct (m s) as [[a | rc] s0]; intros H.
  - exists a, s0. auto.
  - discriminate H.
Qed.

Lemma flash_area_open_ok_inv (id : Z) (s s' : fstate) (a : flash_area) :
  flash_area_open id s = (Ok a, s') -> s' = s /\ fs_flash s !! id = Some a.
Proof.
  unfold flash_area_open. destruct (fs_flash s !! id) as [a' |]; intros H.
  - injection H as -> ->. auto.
  - discriminate H.
Qed.

Section Completion.

Context (pf : platform).

Lemma decode_flag_set : decode_flag pf BOOT_FLAG_SET = BOOT_FLAG_SET.
Proof. reflexivity. Qed.

(** After the commit step the primary trailer decodes with copy_done Set. *)
Lemma commit_sets_copy_done (p : Z) (s s' : fstate) :
  flash_write_trailer p (set_tr_copy_done BOOT_FLAG_SET) s = (Ok tt, s') ->
  exists a, fs_flash s' !! p = Some a /\
            copy_done (decode_trailer pf (fa_trailer a)) = BOOT_FLAG_SET.
Proof.
  unfold flash_write_trailer. intros H.
  apply bind_ok_inv in H. destruct H as (a & s0 & Hopen & Hstore).
  apply flash_area_open_ok_inv in Hopen. destruct Hopen as [-> _].
  unfold flash_store in Hstore. injection Hstore as <-.
  eexists. split.
  - simpl. apply lookup_insert_eq.
  - reflexivity.
Qed.

(** Erasing the trailer of another area keeps an area as it is. *)
Lemma erase_keeps_other (p q : Z) (s s' : fstate) (a : flash_area) :
  p <> q ->
  fs_flash s !! p = Some a ->
  flash_erase_trailer pf q s = (Ok tt, s') ->
  fs_flash s' !! p = Some a /\ is_Some (fs_flash s' !! q).
Proof.
  intros Hne Ha. unfold flash_erase_trailer. intros H.
  apply bind_ok_inv in H. destruct H as (b & s0 & Hopen & Hstore).
  apply flash_area_open_ok_inv in Hopen. destruct Hopen as [-> _].
  unfold flash_store in Hstore. injection Hstore as <-. simpl.
  split.
  - rewrite lookup_insert_ne by congruence. exact Ha.
  - rewrite lookup_insert_eq. eauto.
Qed.

(** Whatever the strategy and the action, a call of the executor that
    returned success is followed by calls that write nothing, provided the
    two slots of the pair are different flash areas. *)
Lemma executor_second_call_is_noop (strategy : swap_strategy)
    (action i : Z) (st st1 : fstate) :
  FLASH_AREA_IMAGE_PRIMARY pf i <> FLASH_AREA_IMAGE_SECONDARY pf i ->
  swap_executor pf strategy action i st = (Ok tt, st1) ->
  swap_executor pf strategy action i st1 = (Ok tt, st1).
Proof.
  intros Hne Hrun. pose proof Hrun as Hfirst.
  unfold swap_executor in Hrun.
  apply bind_ok_inv in Hrun. destruct Hrun as (pa & s0 & Hopen & Hrun).
  apply flash_area_open_ok_inv in Hopen. destruct Hopen as [-> Hpa].
  apply bind_ok_inv in Hrun. destruct Hrun as (sa & s0 & Hopen & Hrun).
  apply flash_area_open_ok_inv in Hopen. destruct Hopen as [-> Hsa].
  destruct (copy_done (decode_trailer pf (fa_trailer pa)) =? BOOT_FLAG_SET).
  { injection Hrun as <-. exact Hfirst. }
  destruct (negb (is_swap_action action)).
  { injection Hrun as <-. exact Hfirst. }
  destruct (negb (image_valid pf sa)); [discriminate Hrun|].
  destruct (BOOT_SET_SWAP_INFO i action) as [info |]; [|discriminate Hrun].
  apply bind_ok_inv in Hrun. destruct Hrun as ([] & s1 & _ & Hrun).
  apply bind_ok_inv in Hrun. destruct Hrun as ([] & s2 & _ & Hrun).
  apply bind_ok_inv in Hrun. destruct Hrun as ([] & s3 & _ & Hrun).
  apply bind_ok_inv in Hrun. destruct Hrun as ([] & s4 & Hcommit & Herase).
  apply commit_sets_copy_done in Hcommit.
  destruct Hcommit as (a & Ha & Hcd).
  destruct (erase_keeps_other _ _ _ _ _ Hne Ha Herase) as [Hp1 [sa1 Hs1]].
  unfold swap_executor, bind, flash_area_open.
  rewrite Hp1, Hs1, Hcd. reflexivity.
Qed.

End Completion.

(** ** Revert, confirm, decide again *)

Section SelfHeal.

Context (pf : platform).

(** The sentinel is not the erased pattern, so an erased trailer reads
    with Unset magic. *)
Hypothesis magic_not_blank :
  boot_img_magic pf <> replicate (Z.to_nat BOOT_MAGIC_SZ) (erased_val pf).








End SelfHeal.

(** The scenario on [demo_platform]: an unconfirmed test boot is decided
    Revert; the revert is executed, the image is confirmed, and the next
    decision is None. *)
Example revert_self_heal_scenario :
  let st := demo_state (demo_flash tr_test_unconfirmed tr_no_request) in
  let st1 := snd (swap_executor demo_platform ScratchBased
                    BOOT_SWAP_TYPE_REVERT 0 st) in
  let st2 := snd (boot_set_confirmed_multi demo_platform 0 st1) in
  boot_swap_type_multi demo_platform 0 (fs_flash st) = BOOT_SWAP_TYPE_REVERT /\
  fst (swap_executor demo_platform ScratchBased BOOT_SWAP_TYPE_REVERT 0 st)
    = Ok tt /\
  fst (boot_set_confirmed_multi demo_platform 0 st1) = Ok tt /\
  boot_swap_type_multi demo_platform 0 (fs_flash st2) = BOOT_SWAP_TYPE_NONE.
Proof. repeat split; by_evaluation. Qed.

(** ** The decision on an unconfirmed test boot *)

(** A test swap run to completion by the executor leaves the primary
    trailer with swap type Test, copy_done Set and image_ok Unset beside an
    erased secondary trailer, and on that state the table decides None. *)
Example completed_test_swap_state :
  let st := demo_state (demo_flash (erased_trailer demo_platform)
                                   tr_test_request) in
  let st1 := snd (swap_executor demo_platform ScratchBased
                    BOOT_SWAP_TYPE_TEST 0 st) in
  fst (swap_executor demo_platform ScratchBased BOOT_SWAP_TYPE_TEST 0 st)
    = Ok tt /\
  (fun a => let d := decode_trailer demo_platform (fa_trailer a) in
            (magic d, swap_type d, copy_done d, image_ok d))
    <$> (fs_flash st1 !! 1)
    = (let d := decode_trailer demo_platform tr_test_swapped in
       Some (magic d, swap_type d, copy_done d, image_ok d)) /\
  fa_trailer <$> (fs_flash st1 !! 2) = Some (erased_trailer demo_platform) /\
  boot_swap_type_multi demo_platform 0 (fs_flash st1) = BOOT_SWAP_TYPE_NONE.
Proof. repeat split; by_evaluation. Qed.




(** ** More on the [swap_info] macros and the header constants *)

Lemma get_swap_type_mod (swap_info : Z) :
  BOOT_GET_SWAP_TYPE swap_info = swap_info mod 16.
Proof.
  unfold BOOT_GET_SWAP_TYPE. change 0x0F with (Z.ones 4).
  rewrite Z.land_ones by lia. reflexivity.
Qed.

Lemma get_image_num_div (swap_info : Z) :
  BOOT_GET_IMAGE_NUM swap_info = swap_info / 16.
Proof.
  unfold BOOT_GET_IMAGE_NUM. rewrite Z.shiftr_div_pow2 by lia. reflexivity.
Qed.

Lemma byte_nibbles (s : Z) :
  is_uint8 s ->
  0 <= s / 16 < 16 /\ 0 <= s mod 16 < 16 /\ s = 16 * (s / 16) + s mod 16.
Proof.
  unfold is_uint8. intros Hs.
  pose proof (Z.div_mod s 16 ltac:(lia)) as Hdm.
  pose proof (Z.mod_pos_bound s 16 ltac:(lia)) as Hmod.
  assert (0 <= s / 16) by (apply Z.div_pos; lia).
  assert (s / 16 < 16) by (apply Z.div_lt_upper_bound; lia).
  lia.
Qed.

(** X1: both extractions of a [swap_info] byte stay within a nibble, and
    together they lose nothing: two bytes with the same image number and
    the same swap type are the same byte. *)
Theorem swap_info_extraction_lossless (s s' : Z) :
  is_uint8 s -> is_uint8 s' ->
  (0 <= BOOT_GET_IMAGE_NUM s <= 0xF /\ 0 <= BOOT_GET_SWAP_TYPE s <= 0xF) /\
  (BOOT_GET_IMAGE_NUM s = BOOT_GET_IMAGE_NUM s' ->
   BOOT_GET_SWAP_TYPE s = BOOT_GET_SWAP_TYPE s' ->
   s = s').
Proof.
  intros Hs Hs'.
  rewrite !get_image_num_div, !get_swap_type_mod.
  destruct (byte_nibbles s Hs) as (Hd & Hm & Heq).
  destruct (byte_nibbles s' Hs') as (Hd' & Hm' & Heq').
  split; [lia|]. intros Himg Hty. lia.
Qed.

Lemma swap_info_extraction_lossless_witness :
  (0 <= BOOT_GET_IMAGE_NUM 0xA7 <= 0xF /\ 0 <= BOOT_GET_SWAP_TYPE 0xA7 <= 0xF) /\
  (BOOT_GET_IMAGE_NUM 0xA7 = BOOT_GET_IMAGE_NUM 0xA7 ->
   BOOT_GET_SWAP_TYPE 0xA7 = BOOT_GET_SWAP_TYPE 0xA7 ->
   0xA7 = 0xA7).
Proof.
  apply (swap_info_extraction_lossless 0xA7 0xA7); unfold is_uint8; lia.
Defined.

(** X2: extracting the image number and the swap type of a byte and
    packing them again gives the byte back: the expression
    [image << 4 | type] always does, and [BOOT_SET_SWAP_INFO] does exactly
    when neither nibble is 0xF; with a nibble equal to 0xF (an erased byte
    0xff among them) an assertion fails. *)
Theorem swap_info_repack (s : Z) :
  is_uint8 s ->
  Z.lor (Z.shiftl (BOOT_GET_IMAGE_NUM s) 4) (BOOT_GET_SWAP_TYPE s) = s /\
  (BOOT_GET_IMAGE_NUM s < 0xF -> BOOT_GET_SWAP_TYPE s < 0xF ->
   BOOT_SET_SWAP_INFO (BOOT_GET_IMAGE_NUM s) (BOOT_GET_SWAP_TYPE s) = Some s) /\
  (BOOT_GET_IMAGE_NUM s = 0xF \/ BOOT_GET_SWAP_TYPE s = 0xF ->
   BOOT_SET_SWAP_INFO (BOOT_GET_IMAGE_NUM s) (BOOT_GET_SWAP_TYPE s) = None).
Proof.
  intros Hs.
  rewrite !get_image_num_div, !get_swap_type_mod.
  destruct (byte_nibbles s Hs) as (Hd & Hm & Heq).
  split; [|split].
  - rewrite lor_shiftl4_add by lia. lia.
  - intros Hi Ht. rewrite set_swap_info_packed by lia. f_equal. lia.
  - intros Hnib. unfold BOOT_SET_SWAP_INFO.
    destruct (Z.ltb_spec (s / 16) 0xF) as [Hi | Hi]; [|reflexivity].
    destruct (Z.ltb_spec (s mod 16) 0xF) as [Ht | Ht]; [|reflexivity].
    lia.
Qed.

Lemma swap_info_repack_witness :
  BOOT_SET_SWAP_INFO (BOOT_GET_IMAGE_NUM 0x23) (BOOT_GET_SWAP_TYPE 0x23)
    = Some 0x23 /\
  BOOT_SET_SWAP_INFO (BOOT_GET_IMAGE_NUM 0xff) (BOOT_GET_SWAP_TYPE 0xff)
    = None.
Proof.
  assert (H1 : is_uint8 0x23) by (unfold is_uint8; lia).
  assert (H2 : is_uint8 0xff) by (unfold is_uint8; lia).
  split.
  - apply (proj1 (proj2 (swap_info_repack 0x23 H1))); vm_compute; reflexivity.
  - apply (proj2 (proj2 (swap_info_repack 0xff H2))). left. reflexivity.
Defined.

(** X3: a byte that [BOOT_SET_SWAP_INFO] produced from an unsigned image
    number and swap type is [16 * image + type] without truncation, is at
    most 0xEE, and has no nibble equal to 0xF; in particular it is never
    0xff. *)
Theorem set_swap_info_byte_range (i t s : Z) :
  0 <= i -> 0 <= t ->
  BOOT_SET_SWAP_INFO i t = Some s ->
  s = 16 * i + t /\
  0 <= s <= 0xEE /\
  s <> 0xff /\
  BOOT_GET_IMAGE_NUM s <> 0xF /\
  BOOT_GET_SWAP_TYPE s <> 0xF.
Proof.
  intros Hi Ht Hs.
  destruct (set_swap_info_inv i t s Hs) as (Hi' & Ht' & _).
  rewrite set_swap_info_packed in Hs by lia. injection Hs as <-.
  destruct (swap_info_fields i t) as (_ & -> & ->); lia.
Qed.

Lemma set_swap_info_byte_range_witness :
  BOOT_SET_SWAP_INFO 14 14 = Some 0xEE /\ 0 <= 0xEE <= 0xEE /\ 0xEE <> 0xff.
Proof.
  assert (Hi : 0 <= 14) by lia.
  assert (Hs : BOOT_SET_SWAP_INFO 14 14 = Some 0xEE) by reflexivity.
  destruct (set_swap_info_byte_range 14 14 0xEE Hi Hi Hs) as (_ & Hr & Hne & _).
  auto.
Defined.

(** X4: [BOOT_SET_SWAP_INFO] is injective on unsigned arguments: two
    packings that produce the same byte packed the same image number and
    the same swap type. *)
Theorem set_swap_info_injective (i t i' t' s : Z) :
  0 <= i -> 0 <= t -> 0 <= i' -> 0 <= t' ->
  BOOT_SET_SWAP_INFO i t = Some s ->
  BOOT_SET_SWAP_INFO i' t' = Some s ->
  i = i' /\ t = t'.
Proof.
  intros Hi Ht Hi' Ht' Hs Hs'.
  destruct (set_swap_info_inv i t s Hs) as (Hlt & Hlt' & _).
  destruct (set_swap_info_inv i' t' s Hs') as (Hlt2 & Hlt2' & _).
  rewrite set_swap_info_packed in Hs by lia.
  rewrite set_swap_info_packed in Hs' by lia.
  injection Hs as Hs. injection Hs' as Hs'. lia.
Qed.

Lemma set_swap_info_injective_witness :
  BOOT_SET_SWAP_INFO 2 3 = Some 0x23 /\ (2 = 2 /\ 3 = 3).
Proof.
  assert (H2 : 0 <= 2) by lia.
  assert (H3 : 0 <= 3) by lia.
  assert (Hs : BOOT_SET_SWAP_INFO 2 3 = Some 0x23) by reflexivity.
  split; [exact Hs|].
  exact (set_swap_info_injective 2 3 2 3 0x23 H2 H3 H2 H3 Hs Hs).
Defined.

(** X5: every swap type, magic and flag constant fits the [uint8_t] field
    of [struct boot_swap_state] that holds it, the constants of one family
    are pairwise distinct, and the control-only values (ANY, NOTGOOD) are
    none of the states a sector can yield. *)
Theorem state_constants_fit_fields :
  Forall is_uint8 swap_type_constants /\
  Forall is_uint8 magic_constants /\
  Forall is_uint8 flag_constants /\
  NoDup swap_type_constants /\
  NoDup magic_constants /\
  NoDup flag_constants /\
  ~ In BOOT_MAGIC_ANY stored_magic_constants /\
  ~ In BOOT_MAGIC_NOTGOOD stored_magic_constants /\
  ~ In BOOT_FLAG_ANY stored_flag_constants.
Proof.
  repeat split.
  1-3: repeat (apply List.Forall_cons; [unfold is_uint8; vm_compute;
                                        split; [discriminate | reflexivity]|]);
    apply List.Forall_nil.
  1-3: apply (bool_decide_unpack _); vm_compute; reflexivity.
  all: vm_compute; intros H;
    repeat (destruct H as [H | H]; try discriminate H); contradiction.
Qed.
